(** * The pure python state renderer, [salt/renderers/py.py]

    [render] checks that the template path is a regular file, hands the
    path and a dictionary of keyword arguments to the script executor
    [salt.utils.templates.py], and turns the dictionary the executor
    returns into either the highstate data or a [SaltRenderError].

    The development has three layers:
    - [Python]: the fragment of the Python object model that [render]
      touches (values with object identity, a heap, truth testing,
      [dict.get], subscription, keyword-argument merging, exceptions);
    - the embedding of [render] itself, as a computation over a world
      (file system and heap) that records the calls it makes;
    - the properties of [render]. *)

From Stdlib Require Import ZArith.
From stdpp Require Import gmap strings list fin_maps.

Open Scope string_scope.

(** ** A fragment of the Python object model *)

Module Python.

(** Objects live on a heap and are named by their identity. *)
Definition loc := positive.

(** A value is an immediate constant or a reference to a heap object.
    Two references are the identical object exactly when their
    locations are equal; a copy of an object lives at another
    location. *)
Inductive value : Type :=
| VNone
| VBool (b : bool)
| VInt (n : Z)
| VStr (s : string)
| VRef (l : loc).

(** Heap objects. Dictionaries are restricted to [str] keys, which is
    what keyword dictionaries and the executor's answer use. [OOther]
    is an object of any other class (a loader, a function, ...) with
    the default truth value. *)
Inductive object : Type :=
| ODict (items : gmap string value)
| OList (elems : list value)
| OOther.

(** The part of the outside world the renderer and the script can see:
    the regular files of the file system and the heap. *)
Record world : Type := World {
  files : gset string;
  heap : gmap loc object
}.

(** Exceptions, with the payload the renderer's callers can observe. *)
Inductive exn : Type :=
| SaltRenderError (message : value)
| TypeError (what : string)
| KeyError (key : string)
| AttributeError (attr : string)
| OtherError (name : string).

Inductive outcome (A : Type) : Type :=
| Return (a : A)
| Raise (e : exn).
Arguments Return {A} a.
Arguments Raise {A} e.

(** Calls that leave the module: the file test and the executor. *)
Inductive event : Type :=
| IsFile (path : string)
| Execute (sfn : option string) (string_mode : bool)
          (kwargs : gmap string value).

(** What a computation leaves behind. *)
Record answer (A : Type) : Type := Answer {
  result : outcome A;
  final : world;
  trace : list event
}.
Arguments Answer {A} result final trace.
Arguments result {A} a.
Arguments final {A} a.
Arguments trace {A} a.

(** Computations read and change the world, may raise, and log their
    outside calls in order. *)
Definition M (A : Type) : Type := world → answer A.

Definition ret {A} (a : A) : M A := λ w, Answer (Return a) w [].

Definition raise {A} (e : exn) : M A := λ w, Answer (Raise e) w [].

Definition bind {A B} (c : M A) (k : A → M B) : M B := λ w,
  let r := c w in
  match result r with
  | Return a =>
      let r' := k a (final r) in
      Answer (result r') (final r') (trace r ++ trace r')
  | Raise e => Answer (Raise e) (final r) (trace r)
  end.

Definition lift {A} (f : world → outcome A) : M A := λ w,
  Answer (f w) w [].

Definition emit (e : event) : M unit := λ w, Answer (Return tt) w [e].

#[global] Instance M_ret : MRet M := @ret.
#[global] Instance M_bind : MBind M := λ A B k c, bind c k.

(** Truth value testing, as [not] and [if] do it on the built-in
    types. *)
Definition truthy (w : world) (v : value) : bool :=
  match v with
  | VNone => false
  | VBool b => b
  | VInt n => negb (n =? 0)%Z
  | VStr s => negb (String.eqb s "")
  | VRef l =>
      match heap w !! l with
      | Some (ODict items) => negb (bool_decide (items = ∅))
      | Some (OList elems) => negb (bool_decide (elems = []))
      | Some OOther | None => true
      end
  end.

Definition truth (v : value) : M bool :=
  lift (λ w, Return (truthy w v)).

(** [d.get(key, default)]: only dictionaries have the method. *)
Definition dict_get (d : value) (key : string) (dflt : value)
  : M value :=
  lift (λ w,
    match d with
    | VRef l =>
        match heap w !! l with
        | Some (ODict items) => Return (default dflt (items !! key))
        | _ => Raise (AttributeError "get")
        end
    | _ => Raise (AttributeError "get")
    end).

(** [d[key]] for a [str] key. *)
Definition getitem (d : value) (key : string) : M value :=
  lift (λ w,
    match d with
    | VRef l =>
        match heap w !! l with
        | Some (ODict items) =>
            match items !! key with
            | Some v => Return v
            | None => Raise (KeyError key)
            end
        | _ => Raise (TypeError "subscript")
        end
    | _ => Raise (TypeError "subscript")
    end).

(** [os.path.isfile(path)] for a path that is a [str] or [None]:
    [os.stat(None)] raises [TypeError], which [isfile] lets through. *)
Definition os_path_isfile (path : option string) : M bool :=
  match path with
  | Some p =>
      _ ← emit (IsFile p);
      lift (λ w, Return (bool_decide (p ∈ files w)))
  | None => raise (TypeError "stat")
  end.

(** ["{}".format(path)] for such a path. *)
Definition format_path (path : option string) : string :=
  match path with
  | Some p => p
  | None => "None"
  end.

(** A call [f(k1=v1, ..., kn=vn, **kws)]: the keyword dictionary the
    callee receives. Python rejects the call with [TypeError] when a
    key of [kws] repeats one of the explicit keywords. *)
Definition keyword_clash (explicit : list (string * value))
    (kws : gmap string value) : bool :=
  existsb (λ kv, bool_decide (is_Some (kws !! kv.1))) explicit.

Definition call_kwargs (explicit : list (string * value))
    (kws : gmap string value) : M (gmap string value) :=
  if keyword_clash explicit kws
  then raise (TypeError "multiple values for keyword argument")
  else ret (list_to_map explicit ∪ kws).

(** *** Structure of values

    What a value looks like from outside, to a given depth: constants
    are themselves, dictionaries and lists are unfolded, an object of
    another class is known by its identity only. Two values, each in its
    own world, have the same structure when they look the same to every
    depth; this is what [==] compares on the built-in types. *)

#[warnings="-register-all"]
Inductive tree : Type :=
| TNone
| TBool (b : bool)
| TInt (n : Z)
| TStr (s : string)
| TDict (items : gmap string tree)
| TList (elems : list tree)
| TObject (l : loc)
| TDangling
| TDeeper.

Fixpoint reify (depth : nat) (h : gmap loc object) (v : value) : tree :=
  match v with
  | VNone => TNone
  | VBool b => TBool b
  | VInt n => TInt n
  | VStr s => TStr s
  | VRef l =>
      match depth with
      | O => TDeeper
      | S d =>
          match h !! l with
          | Some (ODict items) => TDict (reify d h <$> items)
          | Some (OList elems) => TList (reify d h <$> elems)
          | Some OOther => TObject l
          | None => TDangling
          end
      end
  end.

Definition same_value (w1 : world) (v1 : value) (w2 : world) (v2 : value)
  : Prop :=
  ∀ depth, reify depth (heap w1) v1 = reify depth (heap w2) v2.

Definition same_exn (w1 : world) (e1 : exn) (w2 : world) (e2 : exn) : Prop :=
  match e1, e2 with
  | SaltRenderError m1, SaltRenderError m2 => same_value w1 m1 w2 m2
  | _, _ => e1 = e2
  end.

Definition same_outcome (w1 : world) (o1 : outcome value)
    (w2 : world) (o2 : outcome value) : Prop :=
  match o1, o2 with
  | Return v1, Return v2 => same_value w1 v1 w2 v2
  | Raise e1, Raise e2 => same_exn w1 e1 w2 e2
  | _, _ => False
  end.

End Python.

Import Python.

(** ** Sample worlds and executors

    Concrete data for the examples that follow the proofs: a minion
    with one state file, the objects the loader injects, and a few
    executors standing for scripts of different behaviour. *)

Module Samples.

Definition executor : Type :=
  option string → bool → gmap string value → world → outcome value * world.

Definition top_py : string := "/srv/salt/top.py".
Definition missing_py : string := "/srv/salt/missing.py".

(** The injected objects: the loader's function registry and the
    grains, options and pillar dictionaries. *)
Definition the_salt : value := VRef 10%positive.
Definition the_grains : value := VRef 11%positive.
Definition the_opts : value := VRef 12%positive.
Definition the_pillar : value := VRef 13%positive.

Definition minion_heap : gmap loc object :=
  {[ 10%positive := OOther;
     11%positive := ODict {[ "os" := VStr "Ubuntu" ]};
     12%positive := ODict {[ "id" := VStr "mysql1" ]};
     13%positive := ODict ∅ ]}.

Definition minion : world := World {[ top_py ]} minion_heap.

(** The highstate data of the module's documentation,
    [{'common_packages': {'pkg.installed': [{'pkgs': ['curl', 'vim']}]}}],
    laid out on the heap; the tree is the object at location 2. *)
Definition common_packages : gmap loc object :=
  {[ 2%positive := ODict {[ "common_packages" := VRef 3%positive ]};
     3%positive := ODict {[ "pkg.installed" := VRef 4%positive ]};
     4%positive := OList [VRef 5%positive];
     5%positive := ODict {[ "pkgs" := VRef 6%positive ]};
     6%positive := OList [VStr "curl"; VStr "vim"] ]}.

Definition tree : value := VRef 2%positive.

(** Answers of the executor: a success carrying the tree, the failure
    of the scenario, failures with an empty and with no diagnostic, a
    success without data, and the empty dictionary the executor gives
    back when the file has gone. *)
Definition success : gmap string value :=
  {[ "result" := VBool true; "data" := tree ]}.
Definition failure : gmap string value :=
  {[ "result" := VBool false; "data" := VStr "syntax error at line 4" ]}.
Definition silent_failure : gmap string value :=
  {[ "result" := VBool false; "data" := VStr "" ]}.
Definition bare_failure : gmap string value :=
  {[ "result" := VBool false ]}.
Definition bare_success : gmap string value :=
  {[ "result" := VBool true ]}.
Definition no_answer : gmap string value := ∅.

(** An executor whose script allocates [objs] and which answers with
    the dictionary [env], itself a new object at location 1. *)
Definition answers (env : gmap string value) (objs : gmap loc object)
  : executor := λ _ _ _ w,
  (Return (VRef 1%positive),
   World (files w) (<[1%positive := ODict env]> (objs ∪ heap w))).

(** An executor that answers with the value [v], which need not be a
    dictionary, and touches nothing. *)
Definition hands_back (v : value) : executor := λ _ _ _ w, (Return v, w).

(** An executor that fails to load the script. *)
Definition raises (e : exn) : executor := λ _ _ _ w, (Raise e, w).

(** An executor for the script [def run(): return <name>]: the data is
    whatever the script finds bound to [name], [None] standing for an
    unbound name. *)
Definition reads (name : string) : executor := λ _ _ kwargs w,
  (Return (VRef 1%positive),
   World (files w)
     (<[1%positive := ODict {[ "result" := VBool true;
                               "data" := default VNone (kwargs !! name) ]}]>
        (heap w))).

(** An executor for a script without side effects that builds its
    highstate data, [{'s3cmd': 'installed'}], anew at every run: the
    data and the answer are new objects at unused locations. *)
Definition builds : executor := λ _ _ _ w,
  let answer_at := fresh (dom (heap w)) in
  let data_at := fresh ({[answer_at]} ∪ dom (heap w)) in
  (Return (VRef answer_at),
   World (files w)
     (<[answer_at := ODict {[ "result" := VBool true;
                              "data" := VRef data_at ]}]>
        (<[data_at := ODict {[ "s3cmd" := VStr "installed" ]}]> (heap w)))).

(** A world in which the successful answer about [common_packages]
    already exists, at location 1. *)
Definition settled : world :=
  World {[ top_py ]}
    (<[1%positive := ODict success]>
       (common_packages ∪ minion_heap)).

End Samples.

(** ** The renderer *)

Section Renderer.

(** The names the salt loader injects into the renderer module. *)
Variables __salt__ __grains__ __opts__ __pillar__ : value.

(** [salt.utils.templates.py(sfn, string, **kwargs)], the script
    executor. It lives outside this module and runs arbitrary user
    code: all the renderer knows is that the call ends with a value or
    an exception and leaves some world behind. The variable stands for
    the whole call, the binding of the executor's own parameters
    included: a keyword that repeats one of them is refused by the call
    and shows as an exception of the variable. *)
Variable templates_py :
  option string → bool → gmap string value → world → outcome value * world.

Definition salt_utils_templates_py (sfn : option string) (string_mode : bool)
    (kwargs : gmap string value) : M value := λ w,
  let r := templates_py sfn string_mode kwargs w in
  Answer r.1 r.2 [Execute sfn string_mode kwargs].

(** Default values of [render]'s parameters. *)
Definition saltenv_default : value := VStr "base".
Definition sls_default : value := VStr "".
Definition tmplpath_default : option string := None.

(** The explicit keywords of the executor call, in source order. *)
Definition builtin_kwargs (saltenv sls : value) : list (string * value) :=
  [ ("__salt__", __salt__); ("salt", __salt__);
    ("__grains__", __grains__); ("grains", __grains__);
    ("__opts__", __opts__); ("opts", __opts__);
    ("__pillar__", __pillar__); ("pillar", __pillar__);
    ("__env__", saltenv); ("saltenv", saltenv);
    ("__sls__", sls); ("sls", sls) ].

Definition render (template : value) (saltenv sls : value)
    (tmplpath : option string) (kws : gmap string value) : M value :=
  let template := tmplpath in
  isfile ← os_path_isfile template;
  if negb isfile then
    raise (SaltRenderError
             (VStr ("Template " +:+ format_path template +:+ " is not a file!")))
  else
    kwargs ← call_kwargs (builtin_kwargs saltenv sls) kws;
    tmp_data ← salt_utils_templates_py template true kwargs;
    res ← dict_get tmp_data "result" (VBool false);
    ok ← truth res;
    if negb ok then
      msg ← dict_get tmp_data "data"
              (VStr "Unknown render error in py renderer");
      raise (SaltRenderError msg)
    else
      getitem tmp_data "data".

(** *** Vocabulary of the properties *)

(** The twelve names [render] binds itself. *)
Definition reserved_names : list string :=
  [ "__salt__"; "salt"; "__grains__"; "grains"; "__opts__"; "opts";
    "__pillar__"; "pillar"; "__env__"; "saltenv"; "__sls__"; "sls" ].

(** The six built-in bindings: reserved name, short alias, and the
    object both stand for. *)
Definition builtin_bindings (saltenv sls : value)
  : list (string * string * value) :=
  [ ("__salt__", "salt", __salt__);
    ("__grains__", "grains", __grains__);
    ("__pillar__", "pillar", __pillar__);
    ("__opts__", "opts", __opts__);
    ("__env__", "saltenv", saltenv);
    ("__sls__", "sls", sls) ].

(** The keyword dictionary of the executor call when no key of [kws]
    repeats a reserved name. *)
Definition context (saltenv sls : value) (kws : gmap string value)
  : gmap string value :=
  list_to_map (builtin_kwargs saltenv sls) ∪ kws.

(** [answered saltenv sls p kws w env w']: the render of [p] from the
    world [w] reaches the executor ([p] is a regular file and no key of
    [kws] is a reserved name), which answers with a dictionary of
    content [env] and leaves the world [w']. *)
Definition answered (saltenv sls : value) (p : string)
    (kws : gmap string value) (w : world)
    (env : gmap string value) (w' : world) : Prop :=
  p ∈ files w ∧
  Forall (λ k, kws !! k = None) reserved_names ∧
  ∃ l, templates_py (Some p) true (context saltenv sls kws) w
         = (Return (VRef l), w') ∧
       heap w' !! l = Some (ODict env).

(** What lines 162-167 make of the executor's answer [tmp_data] in the
    world the executor left. *)
Definition checked (w : world) (tmp_data : value) : outcome value :=
  match tmp_data with
  | VRef l =>
      match heap w !! l with
      | Some (ODict env) =>
          if truthy w (default (VBool false) (env !! "result")) then
            match env !! "data" with
            | Some d => Return d
            | None => Raise (KeyError "data")
            end
          else
            Raise (SaltRenderError
                     (default (VStr "Unknown render error in py renderer")
                              (env !! "data")))
      | _ => Raise (AttributeError "get")
      end
  | _ => Raise (AttributeError "get")
  end.

(** The outcomes the render contract allows: a returned value or a
    [SaltRenderError]. *)
Definition typed_outcome (o : outcome value) : Prop :=
  (∃ d, o = Return d) ∨ (∃ m, o = Raise (SaltRenderError m)).

(** [s] occurs in [t]. *)
Definition occurs_in (s t : string) : Prop :=
  ∃ before after, t = before +:+ s +:+ after.

(** The outcomes of [n] renders of the same arguments, one after the
    other, each from the world its predecessor left. *)
Fixpoint renders (n : nat) (template saltenv sls : value)
    (tmplpath : option string) (kws : gmap string value) (w : world)
  : list (outcome value) :=
  match n with
  | O => []
  | S m =>
      let r := render template saltenv sls tmplpath kws w in
      result r :: renders m template saltenv sls tmplpath kws (final r)
  end.


(** *** Calling [render]

    The signature, line 135:
    [def render(template, saltenv="base", sls="", tmplpath=None, **kws)].
    A call gives positional arguments and keywords. Python fills the
    four parameters from the positional arguments in order, then from
    the keywords of their names; a parameter given twice, a fifth
    positional argument or a missing [template] is a [TypeError]; the
    defaults fill the rest, and the keywords of other names make up
    [kws]. *)

Definition parameters : list string :=
  [ "template"; "saltenv"; "sls"; "tmplpath" ].

Record binding : Type := Binding {
  bound_template : value;
  bound_saltenv : value;
  bound_sls : value;
  bound_tmplpath : value;
  bound_kws : gmap string value
}.

(** The value of the parameter [name], which is the [i]-th. *)
Definition slot (args : list value) (kwargs : gmap string value)
    (i : nat) (name : string) (dflt : option value) : outcome value :=
  match args !! i, kwargs !! name with
  | Some _, Some _ => Raise (TypeError "call")
  | Some v, None => Return v
  | None, Some v => Return v
  | None, None =>
      match dflt with
      | Some d => Return d
      | None => Raise (TypeError "call")
      end
  end.

Definition bind_arguments (args : list value) (kwargs : gmap string value)
  : outcome binding :=
  if decide (length parameters < length args) then Raise (TypeError "call")
  else
    match slot args kwargs 0 "template" None,
          slot args kwargs 1 "saltenv" (Some saltenv_default),
          slot args kwargs 2 "sls" (Some sls_default),
          slot args kwargs 3 "tmplpath" (Some VNone) with
    | Return template, Return saltenv, Return sls, Return tmplpath =>
        Return (Binding template saltenv sls tmplpath
                        (foldr delete kwargs parameters))
    | _, _, _, _ => Raise (TypeError "call")
    end.

(** The paths the model of [os.path.isfile] covers: [None] and [str]. *)
Definition as_path (v : value) : option (option string) :=
  match v with
  | VNone => Some None
  | VStr p => Some (Some p)
  | _ => None
  end.

(** A call of [render] with the positional arguments [args] and the
    keywords [kwargs]. It is [None] for a [tmplpath] of another type,
    which this development leaves out. *)
Definition call_render (args : list value) (kwargs : gmap string value)
  : option (M value) :=
  match bind_arguments args kwargs with
  | Raise e => Some (raise e)
  | Return b =>
      match as_path (bound_tmplpath b) with
      | Some path =>
          Some (render (bound_template b) (bound_saltenv b) (bound_sls b)
                       path (bound_kws b))
      | None => None
      end
  end.

(** *** How a render unfolds *)

Local Arguments keyword_clash : simpl never.

Lemma keyword_clash_false explicit (kws : gmap string value) :
  keyword_clash explicit kws = false ↔
  Forall (λ k, kws !! k = None) explicit.*1.
Proof.
  unfold keyword_clash. induction explicit as [|[k v] rest IH]; simpl.
  - split; [constructor | done].
  - rewrite orb_false_iff, IH, Forall_cons. 
    rewrite bool_decide_eq_false, <- eq_None_not_Some. done.
Qed.

Lemma reserved_names_kwargs saltenv sls :
  (builtin_kwargs saltenv sls).*1 = reserved_names.
Proof. reflexivity. Qed.

Lemma render_no_path template saltenv sls kws w :
  render template saltenv sls None kws w
  = Answer (Raise (TypeError "stat")) w [].
Proof. reflexivity. Qed.

Lemma render_not_a_file template saltenv sls p kws w :
  p ∉ files w →
  render template saltenv sls (Some p) kws w
  = Answer (Raise (SaltRenderError
                     (VStr ("Template " +:+ p +:+ " is not a file!"))))
           w [IsFile p].
Proof.
  intros Hp. unfold render, os_path_isfile, mbind, M_bind, bind, emit, lift, raise.
  simpl. rewrite (bool_decide_eq_false_2 _ Hp). reflexivity.
Qed.

Lemma render_clash template saltenv sls p kws w :
  p ∈ files w →
  Exists (λ k, is_Some (kws !! k)) reserved_names →
  render template saltenv sls (Some p) kws w
  = Answer (Raise (TypeError "multiple values for keyword argument"))
           w [IsFile p].
Proof.
  intros Hp Hc.
  assert (keyword_clash (builtin_kwargs saltenv sls) kws = true) as Hk.
  { destruct (keyword_clash _ _) eqn:E; [done|].
    apply keyword_clash_false in E. rewrite reserved_names_kwargs in E.
    apply Exists_exists in Hc as (k & Hin & Hs).
    rewrite Forall_forall in E. rewrite (E k Hin) in Hs. by destruct Hs. }
  unfold render, os_path_isfile, call_kwargs, mbind, M_bind, bind, emit, lift, raise.
  simpl. rewrite (bool_decide_eq_true_2 _ Hp). simpl. rewrite Hk. reflexivity.
Qed.

Lemma render_executes template saltenv sls p kws w :
  p ∈ files w →
  Forall (λ k, kws !! k = None) reserved_names →
  render template saltenv sls (Some p) kws w
  = let r := templates_py (Some p) true (context saltenv sls kws) w in
    Answer (match r.1 with
            | Return tmp_data => checked r.2 tmp_data
            | Raise e => Raise e
            end)
           r.2
           [IsFile p; Execute (Some p) true (context saltenv sls kws)].
Proof.
  intros Hp Hc.
  rewrite <- (reserved_names_kwargs saltenv sls) in Hc.
  apply keyword_clash_false in Hc.
  unfold render, os_path_isfile, call_kwargs, mbind, M_bind, bind, emit, lift, raise.
  simpl. rewrite (bool_decide_eq_true_2 _ Hp). simpl. rewrite Hc. simpl.
  unfold salt_utils_templates_py, context.
  destruct (templates_py _ _ _ _) as [[v|e] w']; simpl; [|reflexivity].
  unfold dict_get, getitem, truth, lift, checked.
  destruct v as [| | | |l]; try reflexivity.
  destruct (heap w' !! l) as [[env| |]|] eqn:Hl; try reflexivity.
  cbn [result final trace].
  destruct (truthy w' _); cbn [negb result final trace]; rewrite Hl.
  - destruct (env !! "data"); reflexivity.
  - reflexivity.
Qed.

Lemma clash_or_not (kws : gmap string value) :
  Forall (λ k, kws !! k = None) reserved_names ∨
  Exists (λ k, is_Some (kws !! k)) reserved_names.
Proof.
  destruct (decide (Forall (λ k, kws !! k = None) reserved_names))
    as [Hall|Hnot]; [by left | right].
  apply not_Forall_Exists in Hnot; [|intros k; apply _].
  eapply Exists_impl; [exact Hnot|].
  intros k Hk. simpl in Hk. by apply not_eq_None_Some.
Qed.

(** Every render is one of four runs: no path at all, a path that is
    no file, a keyword clash, or a call of the executor. *)
Lemma render_cases template saltenv sls tmplpath kws w :
  let a := render template saltenv sls tmplpath kws w in
  (tmplpath = None ∧ final a = w ∧ trace a = []) ∨
  (∃ p, tmplpath = Some p ∧ final a = w ∧ trace a = [IsFile p] ∧
        (p ∉ files w ∨ Exists (λ k, is_Some (kws !! k)) reserved_names)) ∨
  (∃ p, tmplpath = Some p ∧ p ∈ files w ∧
        Forall (λ k, kws !! k = None) reserved_names ∧
        final a = (templates_py (Some p) true (context saltenv sls kws) w).2 ∧
        trace a = [IsFile p; Execute (Some p) true (context saltenv sls kws)]).
Proof.
  destruct tmplpath as [p|]; [|left; by rewrite render_no_path].
  right. destruct (decide (p ∈ files w)) as [Hp|Hp].
  - destruct (clash_or_not kws) as [Hk|Hk].
    + right. exists p. by rewrite render_executes.
    + left. exists p. rewrite render_clash by done. eauto.
  - left. exists p. rewrite render_not_a_file by done. eauto.
Qed.

Lemma render_answered template saltenv sls p kws w env w' :
  answered saltenv sls p kws w env w' →
  render template saltenv sls (Some p) kws w
  = Answer (if truthy w' (default (VBool false) (env !! "result")) then
              match env !! "data" with
              | Some d => Return d
              | None => Raise (KeyError "data")
              end
            else
              Raise (SaltRenderError
                       (default (VStr "Unknown render error in py renderer")
                                (env !! "data"))))
           w'
           [IsFile p; Execute (Some p) true (context saltenv sls kws)].
Proof.
  intros (Hp & Hk & l & Hrun & Hl).
  rewrite render_executes by done. rewrite Hrun. simpl. by rewrite Hl.
Qed.

Lemma context_builtin saltenv sls kws reserved alias v :
  (reserved, alias, v) ∈ builtin_bindings saltenv sls →
  context saltenv sls kws !! reserved = Some v ∧
  context saltenv sls kws !! alias = Some v.
Proof.
  intros Hin. unfold context, builtin_bindings in *.
  repeat (apply elem_of_cons in Hin as [Heq|Hin];
          [inversion Heq; subst; split; apply lookup_union_Some_l; reflexivity|]).
  by apply elem_of_nil in Hin.
Qed.

Lemma render_keeps_pure_world template saltenv sls tmplpath kws w :
  (∀ sfn mode kwargs w0, (templates_py sfn mode kwargs w0).2 = w0) →
  final (render template saltenv sls tmplpath kws w) = w.
Proof.
  intros Hpure.
  destruct (render_cases template saltenv sls tmplpath kws w)
    as [(_ & Hf & _)|[(p & _ & Hf & _)|(p & _ & _ & _ & Hf & _)]];
    rewrite Hf; [done | done | apply Hpure].
Qed.

Lemma renders_pure n template saltenv sls tmplpath kws w :
  (∀ sfn mode kwargs w0, (templates_py sfn mode kwargs w0).2 = w0) →
  renders n template saltenv sls tmplpath kws w
  = replicate n (result (render template saltenv sls tmplpath kws w)).
Proof.
  intros Hpure. induction n as [|n IH]; simpl; [done|].
  by rewrite render_keeps_pure_world, IH.
Qed.

(** *** Structure is all [render] looks at *)

Lemma same_value_refl w v : same_value w v w v.
Proof. by intros depth. Qed.

Lemma reify_ref d h l :
  reify (S d) h (VRef l)
  = match h !! l with
    | Some (ODict items) => TDict (reify d h <$> items)
    | Some (OList elems) => TList (reify d h <$> elems)
    | Some OOther => TObject l
    | None => TDangling
    end.
Proof. reflexivity. Qed.

(** Values of the same structure are both constants, and then equal,
    or both references. *)
Lemma same_value_shape w1 v1 w2 v2 :
  same_value w1 v1 w2 v2 →
  (v1 = v2 ∧ ∀ l, v1 ≠ VRef l) ∨ (∃ l1 l2, v1 = VRef l1 ∧ v2 = VRef l2).
Proof.
  intros Hsame. specialize (Hsame 0).
  destruct v1, v2; simpl in Hsame; try discriminate;
    try (left; split; [congruence | discriminate]).
  right; eauto.
Qed.

Lemma same_value_truthy w1 v1 w2 v2 :
  same_value w1 v1 w2 v2 → truthy w1 v1 = truthy w2 v2.
Proof.
  intros Hsame.
  destruct (same_value_shape _ _ _ _ Hsame)
    as [[<- Hc]|(l1 & l2 & -> & ->)].
  { destruct v1; try reflexivity. by destruct (Hc l). }
  specialize (Hsame 1). rewrite !reify_ref in Hsame. simpl.
  destruct (heap w1 !! l1) as [[m1|xs1|]|], (heap w2 !! l2) as [[m2|xs2|]|];
    try discriminate; try reflexivity.
  - injection Hsame as Hm. f_equal. apply bool_decide_ext.
    split; intros ->; rewrite fmap_empty in Hm;
      [symmetry in Hm|]; by apply fmap_empty_inv in Hm.
  - injection Hsame as Hxs. f_equal. apply bool_decide_ext.
    destruct xs1, xs2; try discriminate; done.
Qed.

Lemma same_dict_lookup w1 l1 m1 w2 l2 m2 k :
  heap w1 !! l1 = Some (ODict m1) →
  heap w2 !! l2 = Some (ODict m2) →
  same_value w1 (VRef l1) w2 (VRef l2) →
  match m1 !! k, m2 !! k with
  | Some a, Some b => same_value w1 a w2 b
  | None, None => True
  | _, _ => False
  end.
Proof.
  intros Hl1 Hl2 Hsame.
  assert (∀ d, reify d (heap w1) <$> m1 !! k = reify d (heap w2) <$> m2 !! k)
    as Hk.
  { intros d. specialize (Hsame (S d)). rewrite !reify_ref in Hsame.
    rewrite Hl1, Hl2 in Hsame. injection Hsame as Hm.
    by rewrite <- !lookup_fmap, Hm. }
  destruct (m1 !! k) as [a|], (m2 !! k) as [b|];
    try (specialize (Hk 0); discriminate); [|done].
  intros d. specialize (Hk d). by injection Hk.
Qed.

Lemma same_value_checked w1 v1 w2 v2 :
  same_value w1 v1 w2 v2 →
  same_outcome w1 (checked w1 v1) w2 (checked w2 v2).
Proof.
  intros Hsame.
  destruct (same_value_shape _ _ _ _ Hsame)
    as [[<- Hc]|(l1 & l2 & -> & ->)].
  { destruct v1; try reflexivity. by destruct (Hc l). }
  pose proof (Hsame 1) as H1. rewrite !reify_ref in H1.
  unfold checked.
  destruct (heap w1 !! l1) as [[m1|xs1|]|] eqn:Hl1,
           (heap w2 !! l2) as [[m2|xs2|]|] eqn:Hl2;
    try discriminate; try reflexivity.
  pose proof (same_dict_lookup _ _ _ _ _ _ "result" Hl1 Hl2 Hsame) as Hr.
  pose proof (same_dict_lookup _ _ _ _ _ _ "data" Hl1 Hl2 Hsame) as Hd.
  assert (truthy w1 (default (VBool false) (m1 !! "result"))
          = truthy w2 (default (VBool false) (m2 !! "result"))) as Ht.
  { destruct (m1 !! "result"), (m2 !! "result"); try done.
    by apply same_value_truthy. }
  rewrite Ht.
  destruct (truthy w2 _), (m1 !! "data"), (m2 !! "data");
    simpl in *; try done; by intros [|depth].
Qed.

(** *** The render contract *)

(** C1. When the executor answers with a dictionary whose ["result"]
    entry is true, [render] returns the very value stored under
    ["data"], whatever it is: for a heap object the same reference, and
    the world is exactly the one the executor left, so nothing was
    copied, allocated or rewritten on the way. *)
Theorem render_returns_data template saltenv sls p kws w env w' r d :
  answered saltenv sls p kws w env w' →
  env !! "result" = Some r →
  truthy w' r = true →
  env !! "data" = Some d →
  result (render template saltenv sls (Some p) kws w) = Return d ∧
  final (render template saltenv sls (Some p) kws w) = w'.
Proof.
  intros Hrun Hr Ht Hd.
  rewrite (render_answered _ _ _ _ _ _ _ _ Hrun).
  rewrite Hr. simpl. rewrite Ht, Hd. done.
Qed.

(** C2, as the code has it. When the ["result"] entry of the
    executor's answer is false, empty or missing, [render] raises
    [SaltRenderError]; its message is the value under ["data"] whenever
    that key is present, an empty value included, and the text
    ["Unknown render error in py renderer"] only when the key is
    missing. *)
Theorem render_failure_message template saltenv sls p kws w env w' :
  answered saltenv sls p kws w env w' →
  truthy w' (default (VBool false) (env !! "result")) = false →
  (∀ d, env !! "data" = Some d →
        result (render template saltenv sls (Some p) kws w)
        = Raise (SaltRenderError d)) ∧
  (env !! "data" = None →
        result (render template saltenv sls (Some p) kws w)
        = Raise (SaltRenderError
                   (VStr "Unknown render error in py renderer"))).
Proof.
  intros Hrun Hf.
  rewrite (render_answered _ _ _ _ _ _ _ _ Hrun), Hf. simpl.
  split; [intros d Hd | intros Hd]; by rewrite Hd.
Qed.

(** C3, as the code has it. The path that is tested is the one bound
    to [tmplpath]. When it is not a regular file, [render] raises
    [SaltRenderError], the one error class of the module, with the
    message ["Template <path> is not a file!"], in which the path
    occurs. *)
Theorem render_missing_template template saltenv sls p kws w :
  p ∉ files w →
  ∃ msg,
    result (render template saltenv sls (Some p) kws w)
    = Raise (SaltRenderError (VStr msg)) ∧
    msg = "Template " +:+ p +:+ " is not a file!" ∧
    occurs_in p msg.
Proof.
  intros Hp. rewrite render_not_a_file by done.
  eexists; split; [reflexivity|]. split; [reflexivity|].
  by exists "Template ", " is not a file!".
Qed.

(** C4. When the path is not a regular file, the only outside call of
    [render] is the file test: the executor is not called, no keyword
    dictionary is built for it, and the world is left as it was. *)
Theorem executor_not_invoked template saltenv sls p kws w :
  p ∉ files w →
  trace (render template saltenv sls (Some p) kws w) = [IsFile p] ∧
  final (render template saltenv sls (Some p) kws w) = w ∧
  ∀ sfn mode kwargs,
    Execute sfn mode kwargs ∉ trace (render template saltenv sls (Some p) kws w).
Proof.
  intros Hp. rewrite render_not_a_file by done. simpl.
  split; [done|]. split; [done|].
  intros sfn mode kwargs Hin.
  apply list_elem_of_singleton in Hin. discriminate.
Qed.

(** C6. Whatever the arguments, every keyword dictionary [render]
    passes to the executor binds each of the six built-ins under its
    reserved name and under its alias, both to the same value: the
    injected object, or the caller's [saltenv] and [sls]. *)
Theorem builtin_bindings_aliased
    template saltenv sls tmplpath kws w sfn mode kwargs reserved alias v :
  Execute sfn mode kwargs ∈ trace (render template saltenv sls tmplpath kws w) →
  (reserved, alias, v) ∈ builtin_bindings saltenv sls →
  kwargs !! reserved = Some v ∧ kwargs !! alias = Some v.
Proof.
  intros Hin Hb.
  destruct (render_cases template saltenv sls tmplpath kws w)
    as [(_ & _ & Ht)|[(p & _ & _ & Ht & _)|(p & _ & _ & _ & _ & Ht)]];
    rewrite Ht in Hin.
  - by apply elem_of_nil in Hin.
  - apply list_elem_of_singleton in Hin. discriminate.
  - apply elem_of_cons in Hin as [Heq|Hin]; [discriminate|].
    apply list_elem_of_singleton in Hin. inversion Hin; subst.
    by apply context_builtin.
Qed.

(** C7, as the code has it. When the path is a string, no extra key
    is a reserved name, and the executor (if the file exists) answers
    with a dictionary that has a ["data"] entry whenever its
    ["result"] entry is true, [render] either returns a value or
    raises [SaltRenderError], the one class of both its own
    failures. *)
Theorem render_outcomes template saltenv sls p kws w :
  Forall (λ k, kws !! k = None) reserved_names →
  (p ∈ files w →
   ∃ env w', answered saltenv sls p kws w env w' ∧
             (truthy w' (default (VBool false) (env !! "result")) = true →
              is_Some (env !! "data"))) →
  typed_outcome (result (render template saltenv sls (Some p) kws w)).
Proof.
  intros Hall Hexec. unfold typed_outcome.
  destruct (decide (p ∈ files w)) as [Hp|Hp].
  - destruct (Hexec Hp) as (env & w' & Hrun & Hdata).
    rewrite (render_answered _ _ _ _ _ _ _ _ Hrun).
    destruct (truthy w' _); simpl; [|right; eauto].
    destruct Hdata as [d Hd]; [done|]. rewrite Hd. left; eauto.
  - rewrite render_not_a_file by done. right; eauto.
Qed.

(** C8. Two renders of the same arguments, from any two worlds in
    which the file test gives the same answer and the executor behaves
    the same (it ends with the same exception or with answers of the
    same structure, as a script without side effects does when it is run
    again), end the same way: with the same exception, or with returned
    values of the same structure. [render] adds nothing of its own. *)
Theorem render_same_structure template saltenv sls tmplpath kws w1 w2 :
  (∀ p, tmplpath = Some p → p ∈ files w1 ↔ p ∈ files w2) →
  (∀ p, tmplpath = Some p → p ∈ files w1 →
        let r1 := templates_py (Some p) true (context saltenv sls kws) w1 in
        let r2 := templates_py (Some p) true (context saltenv sls kws) w2 in
        same_outcome r1.2 r1.1 r2.2 r2.1) →
  let a1 := render template saltenv sls tmplpath kws w1 in
  let a2 := render template saltenv sls tmplpath kws w2 in
  same_outcome (final a1) (result a1) (final a2) (result a2).
Proof.
  intros Hfiles Hexec. simpl.
  destruct tmplpath as [p|]; [|by rewrite !render_no_path].
  specialize (Hfiles p eq_refl). specialize (Hexec p eq_refl).
  destruct (decide (p ∈ files w1)) as [Hp|Hp].
  - pose proof (proj1 Hfiles Hp) as Hp2.
    destruct (clash_or_not kws) as [Hk|Hk].
    + rewrite !render_executes by done. simpl.
      specialize (Hexec Hp). simpl in Hexec.
      destruct (templates_py _ _ _ w1) as [[v1|e1] w1'],
               (templates_py _ _ _ w2) as [[v2|e2] w2'];
        simpl in *; try done.
      by apply same_value_checked.
    + by rewrite !render_clash.
  - assert (p ∉ files w2) as Hp2 by (by rewrite <- Hfiles).
    rewrite !render_not_a_file by done. simpl. by intros [|depth].
Qed.

(** The same for an executor that leaves the world as it found it:
    every render of a series ends like the first, with the same object
    if it returns one. *)
Lemma pure_renders_agree template saltenv sls tmplpath kws w n i j oi oj :
  (∀ sfn mode kwargs w0, (templates_py sfn mode kwargs w0).2 = w0) →
  renders n template saltenv sls tmplpath kws w !! i = Some oi →
  renders n template saltenv sls tmplpath kws w !! j = Some oj →
  oi = oj.
Proof.
  intros Hpure Hi Hj. rewrite renders_pure in Hi, Hj by done.
  apply lookup_replicate in Hi as [-> _].
  apply lookup_replicate in Hj as [-> _]. done.
Qed.

(** C9. The first positional argument has no influence: two renders
    that differ only in [template] are the same computation. *)
Theorem template_argument_ignored
    template1 template2 saltenv sls tmplpath kws w :
  render template1 saltenv sls tmplpath kws w
  = render template2 saltenv sls tmplpath kws w.
Proof. reflexivity. Qed.

(** C10. When the executor's answer has no ["result"] key, [render]
    raises [SaltRenderError], with the value under ["data"] as its
    message when there is one and the default text otherwise; it
    neither returns nor raises anything else. *)
Theorem missing_result_is_failure template saltenv sls p kws w env w' :
  answered saltenv sls p kws w env w' →
  env !! "result" = None →
  result (render template saltenv sls (Some p) kws w)
  = Raise (SaltRenderError
             (default (VStr "Unknown render error in py renderer")
                      (env !! "data"))).
Proof.
  intros Hrun Hr.
  rewrite (render_answered _ _ _ _ _ _ _ _ Hrun), Hr. reflexivity.
Qed.

(** *** Beyond the contract: the shape of every render *)

(** X1. [render] calls the executor at most once, and only after the
    file test of the same path has succeeded: a call of the executor in
    the trace is the second and last outside call, for the path given
    as [tmplpath], in string mode, with the context of this render. *)
Theorem executor_called_once_after_file_test
    template saltenv sls tmplpath kws w sfn mode kwargs :
  Execute sfn mode kwargs ∈ trace (render template saltenv sls tmplpath kws w) →
  ∃ p, tmplpath = Some p ∧ sfn = Some p ∧ mode = true ∧
       p ∈ files w ∧
       kwargs = context saltenv sls kws ∧
       trace (render template saltenv sls tmplpath kws w)
       = [IsFile p; Execute (Some p) true kwargs].
Proof.
  intros Hin.
  destruct (render_cases template saltenv sls tmplpath kws w)
    as [(_ & _ & Ht)|[(p & _ & _ & Ht & _)|(p & Hp & Hfile & _ & _ & Ht)]];
    rewrite Ht in Hin.
  - by apply elem_of_nil in Hin.
  - apply list_elem_of_singleton in Hin. discriminate.
  - apply elem_of_cons in Hin as [Heq|Hin]; [discriminate|].
    apply list_elem_of_singleton in Hin. inversion Hin; subst.
    exists p. by rewrite Ht.
Qed.

(** X2. [render] changes the world only through the executor: without
    a call of the executor the world is left as it was, and after a
    call it is the world the executor left, also when the render then
    fails. *)
Theorem world_changes_through_executor_only
    template saltenv sls tmplpath kws w :
  ((∀ sfn mode kwargs,
       Execute sfn mode kwargs ∉ trace (render template saltenv sls tmplpath kws w)) →
   final (render template saltenv sls tmplpath kws w) = w) ∧
  (∀ sfn mode kwargs,
     Execute sfn mode kwargs ∈ trace (render template saltenv sls tmplpath kws w) →
     final (render template saltenv sls tmplpath kws w)
     = (templates_py sfn mode kwargs w).2).
Proof.
  destruct (render_cases template saltenv sls tmplpath kws w)
    as [(_ & Hf & Ht)|[(p & _ & Hf & Ht & _)|(p & _ & _ & _ & Hf & Ht)]];
    rewrite Hf, Ht; split; try done.
  - intros sfn mode kwargs Hin. by apply elem_of_nil in Hin.
  - intros sfn mode kwargs Hin.
    apply list_elem_of_singleton in Hin. discriminate.
  - intros Hnone. destruct (Hnone (Some p) true (context saltenv sls kws)).
    apply elem_of_cons. right. by apply list_elem_of_singleton.
  - intros sfn mode kwargs Hin.
    apply elem_of_cons in Hin as [Heq|Hin]; [discriminate|].
    apply list_elem_of_singleton in Hin. by inversion Hin.
Qed.

(** X3. An exception of the executor passes through [render] as it
    is, neither caught nor wrapped in a [SaltRenderError]. *)
Theorem executor_exception_propagates
    template saltenv sls p kws w e w' :
  p ∈ files w →
  Forall (λ k, kws !! k = None) reserved_names →
  templates_py (Some p) true (context saltenv sls kws) w = (Raise e, w') →
  render template saltenv sls (Some p) kws w
  = Answer (Raise e) w'
           [IsFile p; Execute (Some p) true (context saltenv sls kws)].
Proof.
  intros Hp Hk Hrun. rewrite render_executes by done. by rewrite Hrun.
Qed.

(** X4. An answer that reports success but has no ["data"] key ends
    the render with [KeyError], from the subscription of line 167. *)
Theorem success_without_data_is_key_error
    template saltenv sls p kws w env w' :
  answered saltenv sls p kws w env w' →
  truthy w' (default (VBool false) (env !! "result")) = true →
  env !! "data" = None →
  result (render template saltenv sls (Some p) kws w)
  = Raise (KeyError "data").
Proof.
  intros Hrun Ht Hd.
  rewrite (render_answered _ _ _ _ _ _ _ _ Hrun), Ht. simpl. by rewrite Hd.
Qed.

(** X5. When the executor hands back a constant ([None], a boolean, a
    number, a string) or a list instead of a dictionary, the render
    ends with [AttributeError]: line 162 calls [get] on the answer
    before anything else. *)
Theorem answer_without_get_is_attribute_error
    template saltenv sls p kws w v w' :
  p ∈ files w →
  Forall (λ k, kws !! k = None) reserved_names →
  templates_py (Some p) true (context saltenv sls kws) w = (Return v, w') →
  match v with
  | VRef l => ∃ elems, heap w' !! l = Some (OList elems)
  | _ => True
  end →
  result (render template saltenv sls (Some p) kws w)
  = Raise (AttributeError "get").
Proof.
  intros Hp Hk Hrun Hv. rewrite render_executes by done. rewrite Hrun.
  cbn [result fst snd]. destruct v as [| | | |l]; try reflexivity.
  destruct Hv as [elems Hl]. unfold checked. by rewrite Hl.
Qed.

(** X6. The context of the executor holds the twelve reserved names
    and the caller's keywords, and nothing else; under every other name
    it has exactly what the caller passed. *)
Theorem context_holds_nothing_else
    template saltenv sls tmplpath kws w sfn mode kwargs :
  Execute sfn mode kwargs ∈ trace (render template saltenv sls tmplpath kws w) →
  dom kwargs = list_to_set reserved_names ∪ dom kws ∧
  ∀ k, k ∉ reserved_names → kwargs !! k = kws !! k.
Proof.
  intros Hin.
  destruct (render_cases template saltenv sls tmplpath kws w)
    as [(_ & _ & Ht)|[(p & _ & _ & Ht & _)|(p & _ & _ & _ & _ & Ht)]];
    rewrite Ht in Hin.
  - by apply elem_of_nil in Hin.
  - apply list_elem_of_singleton in Hin. discriminate.
  - apply elem_of_cons in Hin as [Heq|Hin]; [discriminate|].
    apply list_elem_of_singleton in Hin. inversion Hin; subst.
    unfold context. split.
    + rewrite dom_union_L, dom_list_to_map_L.
      by rewrite reserved_names_kwargs.
    + intros k Hk. apply lookup_union_r.
      apply not_elem_of_list_to_map_1. by rewrite reserved_names_kwargs.
Qed.

(** Where the outcome of a render that reached the executor comes
    from. *)
Lemma checked_return w v d :
  checked w v = Return d →
  ∃ l env r, v = VRef l ∧ heap w !! l = Some (ODict env) ∧
             env !! "result" = Some r ∧ truthy w r = true ∧
             env !! "data" = Some d.
Proof.
  unfold checked. destruct v as [| | | |l]; try discriminate.
  destruct (heap w !! l) as [[env| |]|] eqn:Hl; try discriminate.
  destruct (env !! "result") as [r|] eqn:Hr; simpl;
    [|discriminate].
  destruct (truthy w r) eqn:Ht; [|discriminate].
  destruct (env !! "data") as [d'|] eqn:Hd; [|discriminate].
  intros [= <-]. by exists l, env, r.
Qed.

Lemma checked_salt_render_error w v m :
  checked w v = Raise (SaltRenderError m) →
  ∃ l env, v = VRef l ∧ heap w !! l = Some (ODict env) ∧
           truthy w (default (VBool false) (env !! "result")) = false ∧
           m = default (VStr "Unknown render error in py renderer")
                       (env !! "data").
Proof.
  unfold checked. destruct v as [| | | |l]; try discriminate.
  destruct (heap w !! l) as [[env| |]|] eqn:Hl; try discriminate.
  destruct (truthy w _) eqn:Ht.
  - destruct (env !! "data"); discriminate.
  - intros [= <-]. by exists l, env.
Qed.

(** X7. [render] never makes up a value: whatever it returns is what
    the executor, called for this render, stored under ["data"] of a
    dictionary whose ["result"] is true. *)
Theorem returned_value_is_data template saltenv sls tmplpath kws w d :
  result (render template saltenv sls tmplpath kws w) = Return d →
  ∃ p env w' r,
    tmplpath = Some p ∧
    answered saltenv sls p kws w env w' ∧
    env !! "result" = Some r ∧ truthy w' r = true ∧
    env !! "data" = Some d ∧
    final (render template saltenv sls tmplpath kws w) = w'.
Proof.
  destruct tmplpath as [p|]; [|by rewrite render_no_path].
  destruct (decide (p ∈ files w)) as [Hp|Hp];
    [|by rewrite render_not_a_file].
  destruct (clash_or_not kws) as [Hk|Hk]; [|by rewrite render_clash].
  rewrite render_executes by done. cbv zeta. cbn [result final].
  destruct (templates_py _ _ _ w) as [[v|e] w'] eqn:Hrun;
    cbn [fst snd]; [|discriminate].
  intros Hc.
  apply checked_return in Hc as (l & env & r & -> & Hl & Hr & Ht & Hd).
  exists p, env, w', r. repeat split; try done. by exists l.
Qed.

(** X8. A [SaltRenderError] out of [render] has one of three origins:
    the file test failed, and the message names the path; or the
    executor answered with a dictionary whose ["result"] is not true,
    and the message is its ["data"] or the default text; or the
    executor itself raised it. *)
Theorem salt_render_error_origin template saltenv sls tmplpath kws w m :
  result (render template saltenv sls tmplpath kws w)
  = Raise (SaltRenderError m) →
  ∃ p, tmplpath = Some p ∧
    (((p ∉ files w) ∧ m = VStr ("Template " +:+ p +:+ " is not a file!")) ∨
     (∃ env w',
        answered saltenv sls p kws w env w' ∧
        truthy w' (default (VBool false) (env !! "result")) = false ∧
        m = default (VStr "Unknown render error in py renderer")
                    (env !! "data")) ∨
     (∃ w',
        p ∈ files w ∧
        templates_py (Some p) true (context saltenv sls kws) w
        = (Raise (SaltRenderError m), w'))).
Proof.
  destruct tmplpath as [p|]; [|by rewrite render_no_path].
  intros Hres. exists p. split; [done|].
  destruct (decide (p ∈ files w)) as [Hp|Hp].
  - right. destruct (clash_or_not kws) as [Hk|Hk];
      [|by rewrite render_clash in Hres].
    rewrite render_executes in Hres by done.
    cbv zeta in Hres. cbn [result] in Hres.
    destruct (templates_py _ _ _ w) as [[v|e] w'] eqn:Hrun;
      cbn [fst snd] in Hres.
    + left. apply checked_salt_render_error in Hres
        as (l & env & -> & Hl & Ht & Hm).
      exists env, w'. split; [|done]. split; [done|]. split; [done|].
      by exists l.
    + right. exists w'. split; [done|]. by injection Hres as ->.
  - left. rewrite render_not_a_file in Hres by done.
    split; [done|]. by injection Hres as <-.
Qed.

(** *** Beyond the contract: the call *)

Lemma slot_return args (kwargs : gmap string value) i name dflt v :
  slot args kwargs i name dflt = Return v →
  (args !! i = Some v ∧ kwargs !! name = None) ∨
  (args !! i = None ∧ kwargs !! name = Some v) ∨
  (args !! i = None ∧ kwargs !! name = None ∧ dflt = Some v).
Proof.
  unfold slot.
  destruct (args !! i), (kwargs !! name), dflt; intros [= <-]; eauto.
Qed.

Lemma slot_raise args (kwargs : gmap string value) i name dflt e :
  slot args kwargs i name dflt = Raise e →
  e = TypeError "call" ∧
  ((is_Some (args !! i) ∧ is_Some (kwargs !! name)) ∨
   (args !! i = None ∧ kwargs !! name = None ∧ dflt = None)).
Proof.
  unfold slot.
  destruct (args !! i), (kwargs !! name), dflt; intros [= <-]; eauto 6.
Qed.

Lemma bind_arguments_return args kwargs b :
  bind_arguments args kwargs = Return b →
  (length args ≤ 4)%nat ∧
  slot args kwargs 0 "template" None = Return (bound_template b) ∧
  slot args kwargs 1 "saltenv" (Some saltenv_default)
  = Return (bound_saltenv b) ∧
  slot args kwargs 2 "sls" (Some sls_default) = Return (bound_sls b) ∧
  slot args kwargs 3 "tmplpath" (Some VNone) = Return (bound_tmplpath b) ∧
  bound_kws b = foldr delete kwargs parameters.
Proof.
  unfold bind_arguments. case_decide as Hlen; [discriminate|].
  simpl in Hlen.
  destruct (slot args kwargs 0 _ _), (slot args kwargs 1 _ _),
           (slot args kwargs 2 _ _), (slot args kwargs 3 _ _);
    try discriminate.
  intros [= <-]. simpl. repeat split; try done. lia.
Qed.

Lemma bind_arguments_raise args kwargs e :
  bind_arguments args kwargs = Raise e → e = TypeError "call".
Proof.
  unfold bind_arguments. case_decide; [by intros [= <-]|].
  repeat match goal with
         | |- context [match slot ?a ?k ?i ?n ?d with _ => _ end] =>
             destruct (slot a k i n d)
         end;
    try discriminate; by intros [= <-].
Qed.

(** A call that reaches the executor has bound its arguments. *)
Lemma call_render_executes args kwargs m w sfn mode ctx :
  call_render args kwargs = Some m →
  Execute sfn mode ctx ∈ trace (m w) →
  ∃ b, bind_arguments args kwargs = Return b ∧
       ctx = context (bound_saltenv b) (bound_sls b) (bound_kws b) ∧
       Forall (λ k, bound_kws b !! k = None) reserved_names.
Proof.
  unfold call_render.
  destruct (bind_arguments args kwargs) as [b|e] eqn:Hb.
  - destruct (as_path (bound_tmplpath b)) as [path|]; [|discriminate].
    intros [= <-] Hin. exists b. split; [done|].
    destruct (render_cases (bound_template b) (bound_saltenv b)
                (bound_sls b) path (bound_kws b) w)
      as [(_ & _ & Ht)|[(p & _ & _ & Ht & _)|(p & _ & _ & Hk & _ & Ht)]];
      rewrite Ht in Hin.
    + by apply elem_of_nil in Hin.
    + apply list_elem_of_singleton in Hin. discriminate.
    + apply elem_of_cons in Hin as [Heq|Hin]; [discriminate|].
      apply list_elem_of_singleton in Hin. by inversion Hin.
  - intros [= <-] Hin. by apply elem_of_nil in Hin.
Qed.

Lemma slot_both args (kwargs : gmap string value) i name dflt a k :
  args !! i = Some a → kwargs !! name = Some k →
  slot args kwargs i name dflt = Raise (TypeError "call").
Proof. intros Ha Hk. unfold slot. by rewrite Ha, Hk. Qed.

Lemma kws_parameter (kwargs : gmap string value) n :
  n ∈ parameters → foldr delete kwargs parameters !! n = None.
Proof.
  intros Hn. unfold parameters in *. simpl.
  repeat (apply elem_of_cons in Hn as [->|Hn]; [by simplify_map_eq|]).
  by apply elem_of_nil in Hn.
Qed.

Lemma kws_other (kwargs : gmap string value) k :
  k ∉ parameters → foldr delete kwargs parameters !! k = kwargs !! k.
Proof.
  intros Hk. unfold parameters in *. simpl.
  repeat (apply not_elem_of_cons in Hk as [? Hk]).
  by rewrite !lookup_delete_ne.
Qed.

(** X9. Binding splits the keywords of a call: the four parameter
    names never reach [kws], and every other keyword reaches it
    unchanged. *)
Theorem keywords_are_split args kwargs b :
  bind_arguments args kwargs = Return b →
  (∀ n, n ∈ parameters → bound_kws b !! n = None) ∧
  (∀ k, k ∉ parameters → bound_kws b !! k = kwargs !! k).
Proof.
  intros Hb.
  apply bind_arguments_return in Hb as (_ & _ & _ & _ & _ & ->).
  split; [apply kws_parameter | apply kws_other].
Qed.

(** X10. A call is rejected before the body runs in exactly three
    cases: more than four positional arguments, a parameter given both
    by position and by keyword, or no [template] at all. *)
Theorem call_rejected_iff args kwargs :
  bind_arguments args kwargs = Raise (TypeError "call") ↔
  (4 < length args)%nat ∨
  (∃ i name, parameters !! i = Some name ∧
             is_Some (args !! i) ∧ is_Some (kwargs !! name)) ∨
  (args = [] ∧ kwargs !! "template" = None).
Proof.
  split.
  - unfold bind_arguments. case_decide as Hlen; [by left|]. right.
    destruct (slot args kwargs 0 _ _) eqn:H0.
    2:{ apply slot_raise in H0 as [_ [[? ?]|(Ha & Hk & _)]].
        - left. by exists 0, "template".
        - right. split; [by destruct args|done]. }
    destruct (slot args kwargs 1 _ _) eqn:H1.
    2:{ apply slot_raise in H1 as [_ [[? ?]|(_ & _ & ?)]]; [|done].
        left. by exists 1, "saltenv". }
    destruct (slot args kwargs 2 _ _) eqn:H2.
    2:{ apply slot_raise in H2 as [_ [[? ?]|(_ & _ & ?)]]; [|done].
        left. by exists 2, "sls". }
    destruct (slot args kwargs 3 _ _) eqn:H3; [done|].
    apply slot_raise in H3 as [_ [[? ?]|(_ & _ & ?)]]; [|done].
    left. by exists 3, "tmplpath".
  - intros [Hlen|[(i & name & Hp & [a Ha] & [k Hk])|[-> Hk]]];
      unfold bind_arguments; case_decide; try done.
    + destruct i as [|[|[|[|i]]]]; simpl in Hp; try discriminate;
        injection Hp as <-;
        rewrite (slot_both _ _ _ _ _ _ _ Ha Hk);
        repeat match goal with
               | |- context [match slot ?a ?k ?i ?n ?d with _ => _ end] =>
                   destruct (slot a k i n d)
               end; done.
    + unfold slot at 1. simpl. by rewrite Hk.
Qed.

(** X11. A call that gives no [tmplpath], neither as the fourth
    positional argument nor by keyword, always ends with [TypeError]
    and does nothing: no file is tested, no script is run. That is so
    also when the path is given as [template]. *)
Theorem call_without_tmplpath args kwargs :
  kwargs !! "tmplpath" = None →
  (length args ≤ 3)%nat →
  ∃ m, call_render args kwargs = Some m ∧
       ∀ w, ∃ what, m w = Answer (Raise (TypeError what)) w [].
Proof.
  intros Hk Hlen. unfold call_render.
  destruct (bind_arguments args kwargs) as [b|e] eqn:Hb.
  - apply bind_arguments_return in Hb as (_ & _ & _ & _ & Hp & _).
    apply slot_return in Hp as [[Ha _]|[[_ Hk']|(_ & _ & Hd)]].
    + apply lookup_lt_Some in Ha. lia.
    + congruence.
    + injection Hd as Hd. rewrite <- Hd. simpl.
      eexists; split; [done|]. intros w. exists "stat".
      apply render_no_path.
  - apply bind_arguments_raise in Hb as ->.
    eexists; split; [done|]. intros w. by exists "call".
Qed.

(** X12. The keywords [saltenv] and [sls] of a call are not extra
    keywords but the parameters: the script finds the caller's value
    under both the reserved name and the alias. *)
Theorem keyword_reaches_both_names args kwargs m w sfn mode ctx :
  call_render args kwargs = Some m →
  Execute sfn mode ctx ∈ trace (m w) →
  (∀ v, kwargs !! "saltenv" = Some v →
        ctx !! "__env__" = Some v ∧ ctx !! "saltenv" = Some v) ∧
  (∀ v, kwargs !! "sls" = Some v →
        ctx !! "__sls__" = Some v ∧ ctx !! "sls" = Some v).
Proof.
  intros Hc Hin.
  destruct (call_render_executes _ _ _ _ _ _ _ Hc Hin) as (b & Hb & -> & _).
  apply bind_arguments_return in Hb as (_ & _ & He & Hs & _ & _).
  split; intros v Hv.
  - apply slot_return in He as [[_ ?]|[[_ ?]|(_ & ? & _)]]; try congruence.
    assert (bound_saltenv b = v) as -> by congruence.
    apply context_builtin, (list_elem_of_lookup_2 _ 4). reflexivity.
  - apply slot_return in Hs as [[_ ?]|[[_ ?]|(_ & ? & _)]]; try congruence.
    assert (bound_sls b = v) as -> by congruence.
    apply context_builtin, (list_elem_of_lookup_2 _ 5). reflexivity.
Qed.

(** X13. When a call gives no [saltenv], the script finds ["base"]
    under [__env__] and [saltenv]; when it gives no [sls], the script
    finds the empty string under [__sls__] and [sls]. *)
Theorem defaults_reach_the_script args kwargs m w sfn mode ctx :
  call_render args kwargs = Some m →
  Execute sfn mode ctx ∈ trace (m w) →
  ((length args ≤ 1)%nat → kwargs !! "saltenv" = None →
   ctx !! "__env__" = Some (VStr "base") ∧
   ctx !! "saltenv" = Some (VStr "base")) ∧
  ((length args ≤ 2)%nat → kwargs !! "sls" = None →
   ctx !! "__sls__" = Some (VStr "") ∧ ctx !! "sls" = Some (VStr "")).
Proof.
  intros Hc Hin.
  destruct (call_render_executes _ _ _ _ _ _ _ Hc Hin) as (b & Hb & -> & _).
  apply bind_arguments_return in Hb as (_ & _ & He & Hs & _ & _).
  split; intros Hlen Hk.
  - apply slot_return in He as [[Ha _]|[[_ ?]|(_ & _ & Hd)]].
    + apply lookup_lt_Some in Ha. lia.
    + congruence.
    + injection Hd as Hd. rewrite <- Hd.
      apply context_builtin, (list_elem_of_lookup_2 _ 4). reflexivity.
  - apply slot_return in Hs as [[Ha _]|[[_ ?]|(_ & _ & Hd)]].
    + apply lookup_lt_Some in Ha. lia.
    + congruence.
    + injection Hd as Hd. rewrite <- Hd.
      apply context_builtin, (list_elem_of_lookup_2 _ 5). reflexivity.
Qed.

(** X14. A call with a keyword named like one of the ten reserved
    names that are no parameters ([__salt__], [salt], [__grains__],
    [grains], [__opts__], [opts], [__pillar__], [pillar], [__env__],
    [__sls__]) never runs the script. *)
Theorem reserved_keyword_never_runs_script args kwargs m w k :
  call_render args kwargs = Some m →
  k ∈ reserved_names →
  k ∉ parameters →
  is_Some (kwargs !! k) →
  ∀ sfn mode ctx, Execute sfn mode ctx ∉ trace (m w).
Proof.
  intros Hc Hk Hnp [v Hv] sfn mode ctx Hin.
  destruct (call_render_executes _ _ _ _ _ _ _ Hc Hin)
    as (b & Hb & _ & Hall).
  apply bind_arguments_return in Hb as (_ & _ & _ & _ & _ & Hkws).
  rewrite Forall_forall in Hall. specialize (Hall k Hk).
  rewrite Hkws, kws_other in Hall by done. congruence.
Qed.



End Renderer.

(** ** The contract on a sample minion *)

Import Samples.

Local Abbreviation sample_render exec :=
  (render the_salt the_grains the_opts the_pillar exec).
Local Abbreviation sample_context :=
  (context the_salt the_grains the_opts the_pillar).

(** Discharges the side conditions of concrete renders. *)
Local Ltac in_files := apply (bool_decide_unpack _); vm_compute; exact I.
Local Ltac no_clash := repeat constructor.
Local Ltac is_answered l :=
  split; [in_files | split; [no_clash | exists l; split; reflexivity]].

(** The documentation's highstate data comes back as the object the
    script built, at location 2, in the world the executor left. *)
Lemma render_returns_data_witness :
  let exec := answers success common_packages in
  let a := sample_render exec VNone (VStr "base") (VStr "") (Some top_py) ∅
                         minion in
  result a = Return tree ∧
  final a = (exec (Some top_py) true
               (sample_context (VStr "base") (VStr "") ∅) minion).2.
Proof.
  intros exec a.
  apply (render_returns_data the_salt the_grains the_opts the_pillar exec
           VNone (VStr "base") (VStr "") top_py ∅ minion
           success _ (VBool true) tree).
  - is_answered 1%positive.
  - reflexivity.
  - reflexivity.
  - reflexivity.
Defined.

(** The failure of the scenario: the diagnostic is the message. *)
Lemma render_failure_message_witness :
  result (sample_render (answers failure ∅) VNone (VStr "base") (VStr "")
                        (Some top_py) ∅ minion)
  = Raise (SaltRenderError (VStr "syntax error at line 4")).
Proof.
  apply (render_failure_message the_salt the_grains the_opts the_pillar
           (answers failure ∅) VNone (VStr "base") (VStr "") top_py ∅ minion
           failure
           ((answers failure ∅) (Some top_py) true
              (sample_context (VStr "base") (VStr "") ∅) minion).2).
  - is_answered 1%positive.
  - reflexivity.
  - reflexivity.
Defined.

(** Against C2 as the specification words it: an empty diagnostic is
    passed on as the message, not replaced by a default, and the default
    for a missing diagnostic is not the text of the specification. *)
Lemma render_failure_message_counterexample :
  result (sample_render (answers silent_failure ∅) VNone (VStr "base")
                        (VStr "") (Some top_py) ∅ minion)
  = Raise (SaltRenderError (VStr "")) ∧
  result (sample_render (answers silent_failure ∅) VNone (VStr "base")
                        (VStr "") (Some top_py) ∅ minion)
  ≠ Raise (SaltRenderError (VStr "Unknown render error in renderer")) ∧
  result (sample_render (answers bare_failure ∅) VNone (VStr "base")
                        (VStr "") (Some top_py) ∅ minion)
  ≠ Raise (SaltRenderError (VStr "Unknown render error in renderer")).
Proof.
  split; [reflexivity|]. split; vm_compute; discriminate.
Qed.

(** The scenario of the missing template. *)
Lemma render_missing_template_witness :
  (missing_py ∉ files minion) ∧
  ∃ msg,
    result (sample_render (answers success common_packages) VNone
                          (VStr "base") (VStr "") (Some missing_py) ∅ minion)
    = Raise (SaltRenderError (VStr msg)) ∧
    msg = "Template /srv/salt/missing.py is not a file!" ∧
    occurs_in "/srv/salt/missing.py" msg.
Proof.
  assert (missing_py ∉ files minion) as Hp by in_files.
  split; [exact Hp|].
  exact (render_missing_template the_salt the_grains the_opts the_pillar
           (answers success common_packages) VNone (VStr "base") (VStr "")
           missing_py ∅ minion Hp).
Defined.

(** Against C3 as the specification words it: the call
    [render('/srv/salt/missing.py')] binds the path to [template] and
    leaves [tmplpath] at [None]. Line 141 drops the path, the file test
    is given [None] and ends with [TypeError]: no [SaltRenderError] is
    raised and no message names the path. The error of a missing
    template and the error of a failed render are one class. *)
Lemma render_missing_template_counterexample :
  (missing_py ∉ files minion) ∧
  (∃ m, call_render the_salt the_grains the_opts the_pillar
                    (answers success common_packages)
                    [VStr "/srv/salt/missing.py"] ∅ = Some m ∧
        m minion = Answer (Raise (TypeError "stat")) minion [] ∧
        ¬ ∃ msg, result (m minion) = Raise (SaltRenderError msg)) ∧
  (∃ missing failed,
     result (sample_render (answers success common_packages) VNone
                           (VStr "base") (VStr "") (Some missing_py) ∅ minion)
     = Raise (SaltRenderError missing) ∧
     result (sample_render (answers failure ∅) VNone
                           (VStr "base") (VStr "") (Some top_py) ∅ minion)
     = Raise (SaltRenderError failed)).
Proof.
  split; [in_files|]. split.
  - eexists. split; [reflexivity|]. split; [reflexivity|].
    intros [msg Hmsg]. discriminate.
  - do 2 eexists. split; reflexivity.
Qed.

(** No script runs for the missing template, whatever the executor. *)
Lemma executor_not_invoked_witness :
  (missing_py ∉ files minion) ∧
  trace (sample_render (raises (OtherError "SyntaxError")) VNone
                       (VStr "base") (VStr "") (Some missing_py) ∅ minion)
  = [IsFile missing_py].
Proof.
  assert (missing_py ∉ files minion) as Hp by in_files.
  split; [exact Hp|].
  exact (proj1 (executor_not_invoked the_salt the_grains the_opts the_pillar
                  (raises (OtherError "SyntaxError")) VNone (VStr "base")
                  (VStr "") missing_py ∅ minion Hp)).
Defined.


(** The function registry is reachable as [__salt__] and as [salt], and
    both are the loader's object. *)
Lemma builtin_bindings_aliased_witness :
  sample_context (VStr "base") (VStr "") ∅ !! "__salt__" = Some the_salt ∧
  sample_context (VStr "base") (VStr "") ∅ !! "salt" = Some the_salt.
Proof.
  apply (builtin_bindings_aliased the_salt the_grains the_opts the_pillar
           (answers success common_packages) VNone (VStr "base") (VStr "")
           (Some top_py) ∅ minion (Some top_py) true).
  - apply (list_elem_of_lookup_2 _ 1). reflexivity.
  - apply (list_elem_of_lookup_2 _ 0). reflexivity.
Defined.

(** A well-behaved executor on an existing file: the render ends
    within the contract. *)
Lemma render_outcomes_witness :
  typed_outcome
    (result (sample_render (answers failure ∅) VNone (VStr "base") (VStr "")
                           (Some top_py) ∅ minion)).
Proof.
  apply (render_outcomes the_salt the_grains the_opts the_pillar
           (answers failure ∅) VNone (VStr "base") (VStr "") top_py ∅ minion).
  - no_clash.
  - intros _. exists failure.
    exists ((answers failure ∅) (Some top_py) true
              (sample_context (VStr "base") (VStr "") ∅) minion).2.
    split; [is_answered 1%positive|]. intros Ht. discriminate Ht.
Defined.

(** Against C7 as the specification words it: a render of an existing
    file with a reserved name among the extra keywords ends with
    [TypeError], which is neither a value nor a [SaltRenderError]. *)
Lemma render_outcomes_counterexample :
  let a := sample_render (answers success common_packages) VNone
                         (VStr "base") (VStr "") (Some top_py)
                         {[ "pillar" := the_pillar ]} minion in
  result a = Raise (TypeError "multiple values for keyword argument") ∧
  ¬ typed_outcome (result a).
Proof.
  intros a. split; [reflexivity|].
  change (result a)
    with (@Raise value (TypeError "multiple values for keyword argument")).
  intros [[d Hd]|[m Hm]]; discriminate.
Qed.

(** The other ways out of the contract, each excluded by a premise of the
    contract: no path, an executor that raises, an answer that
    is no dictionary, and a success without data. *)
Example render_without_path :
  result (sample_render (answers success common_packages)
                        (VStr "/srv/salt/top.py") saltenv_default sls_default
                        tmplpath_default ∅ minion)
  = Raise (TypeError "stat").
Proof. reflexivity. Qed.

Example render_executor_raises :
  result (sample_render (raises (OtherError "SyntaxError")) VNone
                        (VStr "base") (VStr "") (Some top_py) ∅ minion)
  = Raise (OtherError "SyntaxError").
Proof. reflexivity. Qed.

Example render_answer_not_a_dict :
  result (sample_render (hands_back VNone) VNone (VStr "base") (VStr "")
                        (Some top_py) ∅ minion)
  = Raise (AttributeError "get").
Proof. reflexivity. Qed.

Example render_success_without_data :
  result (sample_render (answers bare_success ∅) VNone (VStr "base")
                        (VStr "") (Some top_py) ∅ minion)
  = Raise (KeyError "data").
Proof. reflexivity. Qed.

(** A script that builds its data anew at every run, rendered twice
    in a row: the two renders return different objects of the same
    structure. *)
Lemma render_same_structure_witness :
  let first := sample_render builds VNone (VStr "base") (VStr "")
                             (Some top_py) ∅ minion in
  let second := sample_render builds VNone (VStr "base") (VStr "")
                              (Some top_py) ∅ (final first) in
  result first = Return (VRef 15%positive) ∧
  result second = Return (VRef 17%positive) ∧
  same_outcome (final first) (result first) (final second) (result second).
Proof.
  intros first second.
  split; [reflexivity|]. split; [reflexivity|].
  apply (render_same_structure the_salt the_grains the_opts the_pillar
           builds VNone (VStr "base") (VStr "") (Some top_py) ∅
           minion (final first)).
  - intros p _. split; intros Hp; exact Hp.
  - intros p Hp _ r1 r2 depth. injection Hp as <-.
    destruct depth as [|[|[|depth]]]; vm_compute; reflexivity.
Defined.

(** Three renders by an executor that only hands back what is already
    there return one and the same object. *)
Example pure_renders_settled :
  renders the_salt the_grains the_opts the_pillar
          (hands_back (VRef 1%positive)) 3
          VNone (VStr "base") (VStr "") (Some top_py) ∅ settled
  = [Return tree; Return tree; Return tree].
Proof. reflexivity. Qed.

(** The executor's empty answer, given when the file has gone between
    the two checks, is a failure with the default message. *)
Lemma missing_result_is_failure_witness :
  result (sample_render (answers no_answer ∅) VNone (VStr "base") (VStr "")
                        (Some top_py) ∅ minion)
  = Raise (SaltRenderError (VStr "Unknown render error in py renderer")).
Proof.
  apply (missing_result_is_failure the_salt the_grains the_opts the_pillar
           (answers no_answer ∅) VNone (VStr "base") (VStr "") top_py ∅ minion
           no_answer
           ((answers no_answer ∅) (Some top_py) true
              (sample_context (VStr "base") (VStr "") ∅) minion).2).
  - is_answered 1%positive.
  - reflexivity.
Defined.

(** ** Beyond the contract, on the sample minion *)

Local Abbreviation sample_call exec :=
  (call_render the_salt the_grains the_opts the_pillar exec).

(** The two outside calls of a successful render, in order. *)
Lemma executor_called_once_after_file_test_witness :
  trace (sample_render (answers success common_packages) VNone
                       (VStr "base") (VStr "") (Some top_py) ∅ minion)
  = [IsFile top_py;
     Execute (Some top_py) true (sample_context (VStr "base") (VStr "") ∅)].
Proof.
  destruct (executor_called_once_after_file_test
              the_salt the_grains the_opts the_pillar
              (answers success common_packages) VNone (VStr "base")
              (VStr "") (Some top_py) ∅ minion (Some top_py) true
              (sample_context (VStr "base") (VStr "") ∅))
    as (p & Hp & _ & _ & _ & _ & Ht).
  - apply (list_elem_of_lookup_2 _ 1). reflexivity.
  - injection Hp as <-. exact Ht.
Defined.

(** A script that does not load: the loader's error comes out of the
    render as it is. *)
Lemma executor_exception_propagates_witness :
  (top_py ∈ files minion) ∧
  sample_render (raises (OtherError "SyntaxError")) VNone (VStr "base")
                (VStr "") (Some top_py) ∅ minion
  = Answer (Raise (OtherError "SyntaxError")) minion
           [IsFile top_py;
            Execute (Some top_py) true
                    (sample_context (VStr "base") (VStr "") ∅)].
Proof.
  assert (top_py ∈ files minion) as Hp by in_files.
  split; [exact Hp|].
  apply (executor_exception_propagates the_salt the_grains the_opts
           the_pillar (raises (OtherError "SyntaxError")) VNone
           (VStr "base") (VStr "") top_py ∅ minion _ minion Hp).
  - no_clash.
  - reflexivity.
Defined.

(** A success without data. *)
Lemma success_without_data_is_key_error_witness :
  result (sample_render (answers bare_success ∅) VNone (VStr "base")
                        (VStr "") (Some top_py) ∅ minion)
  = Raise (KeyError "data").
Proof.
  apply (success_without_data_is_key_error the_salt the_grains the_opts
           the_pillar (answers bare_success ∅) VNone (VStr "base")
           (VStr "") top_py ∅ minion bare_success
           ((answers bare_success ∅) (Some top_py) true
              (sample_context (VStr "base") (VStr "") ∅) minion).2).
  - is_answered 1%positive.
  - reflexivity.
  - reflexivity.
Defined.

(** An executor that hands back [None]. *)
Lemma answer_without_get_is_attribute_error_witness :
  result (sample_render (hands_back VNone) VNone (VStr "base") (VStr "")
                        (Some top_py) ∅ minion)
  = Raise (AttributeError "get").
Proof.
  apply (answer_without_get_is_attribute_error the_salt the_grains
           the_opts the_pillar (hands_back VNone) VNone (VStr "base")
           (VStr "") top_py ∅ minion VNone minion).
  - in_files.
  - no_clash.
  - reflexivity.
  - exact I.
Defined.

(** With one context variable the script sees thirteen names. *)
Lemma context_holds_nothing_else_witness :
  let kws : gmap string value := {[ "site_name" := VStr "example.org" ]} in
  let kwargs := sample_context (VStr "base") (VStr "") kws in
  dom kwargs = list_to_set reserved_names ∪ dom kws ∧
  kwargs !! "site_name" = Some (VStr "example.org") ∧
  kwargs !! "data" = None.
Proof.
  intros kws kwargs.
  destruct (context_holds_nothing_else the_salt the_grains the_opts
              the_pillar (reads "site_name") VNone (VStr "base") (VStr "")
              (Some top_py) kws minion (Some top_py) true kwargs)
    as [Hdom Hother].
  - apply (list_elem_of_lookup_2 _ 1). reflexivity.
  - split; [exact Hdom|]. split.
    + rewrite Hother; [reflexivity | in_files].
    + rewrite Hother; [reflexivity | in_files].
Defined.

(** The tree a render returned was the data of a true answer. *)
Lemma returned_value_is_data_witness :
  ∃ (env : gmap string value) (r : value),
    env !! "result" = Some r ∧ env !! "data" = Some tree.
Proof.
  destruct (returned_value_is_data the_salt the_grains the_opts the_pillar
              (answers success common_packages) VNone (VStr "base")
              (VStr "") (Some top_py) ∅ minion tree)
    as (p & env & w' & r & _ & _ & Hr & _ & Hd & _).
  - reflexivity.
  - by exists env, r.
Defined.

(** The error of the scenario came from the answer of the executor. *)
Lemma salt_render_error_origin_witness :
  ∃ p, Some top_py = Some p ∧
    (((p ∉ files minion) ∧
      VStr "syntax error at line 4"
      = VStr ("Template " +:+ p +:+ " is not a file!")) ∨
     (∃ env w',
        answered the_salt the_grains the_opts the_pillar
                 (answers failure ∅) (VStr "base") (VStr "") p ∅ minion
                 env w' ∧
        truthy w' (default (VBool false) (env !! "result")) = false ∧
        VStr "syntax error at line 4"
        = default (VStr "Unknown render error in py renderer")
                  (env !! "data")) ∨
     (∃ w',
        p ∈ files minion ∧
        answers failure ∅ (Some p) true
                (sample_context (VStr "base") (VStr "") ∅) minion
        = (Raise (SaltRenderError (VStr "syntax error at line 4")), w'))).
Proof.
  apply (salt_render_error_origin the_salt the_grains the_opts the_pillar
           (answers failure ∅) VNone (VStr "base") (VStr "") (Some top_py)
           ∅ minion (VStr "syntax error at line 4")).
  reflexivity.
Defined.

(** A call as the state compiler makes it: the path by keyword, the
    environment by keyword, one context variable. *)
Lemma keywords_are_split_witness :
  let kwargs : gmap string value :=
    {[ "tmplpath" := VStr top_py; "saltenv" := VStr "dev";
       "site_name" := VStr "example.org" ]} in
  let b := Binding VNone (VStr "dev") (VStr "") (VStr top_py)
                   (foldr delete kwargs parameters) in
  bind_arguments [VNone] kwargs = Return b ∧
  bound_kws b !! "saltenv" = None ∧
  bound_kws b !! "site_name" = Some (VStr "example.org").
Proof.
  intros kwargs b.
  assert (bind_arguments [VNone] kwargs = Return b) as Hb by reflexivity.
  destruct (keywords_are_split [VNone] kwargs b Hb) as [Hpar Hother].
  split; [exact Hb|]. split.
  - apply Hpar. in_files.
  - rewrite Hother; [reflexivity | in_files].
Defined.

(** The call [render("/srv/salt/missing.py")] and nothing else. *)
Lemma call_without_tmplpath_witness :
  ∃ m, sample_call (answers success common_packages)
                   [VStr "/srv/salt/missing.py"] ∅ = Some m ∧
       ∀ w, ∃ what, m w = Answer (Raise (TypeError what)) w [].
Proof.
  apply (call_without_tmplpath the_salt the_grains the_opts the_pillar
           (answers success common_packages)
           [VStr "/srv/salt/missing.py"] ∅).
  - reflexivity.
  - simpl. lia.
Defined.

(** The environment given by keyword. *)
Lemma keyword_reaches_both_names_witness :
  let kwargs : gmap string value :=
    {[ "tmplpath" := VStr top_py; "saltenv" := VStr "dev" ]} in
  let ctx := sample_context (VStr "dev") (VStr "") ∅ in
  ctx !! "__env__" = Some (VStr "dev") ∧ ctx !! "saltenv" = Some (VStr "dev").
Proof.
  intros kwargs ctx.
  set (m := sample_render (answers success common_packages) VNone
                          (VStr "dev") (VStr "") (Some top_py) ∅).
  assert (sample_call (answers success common_packages) [VNone] kwargs
          = Some m) as Hc by reflexivity.
  assert (Execute (Some top_py) true ctx ∈ trace (m minion)) as Hin
    by (apply (list_elem_of_lookup_2 _ 1); reflexivity).
  apply (proj1 (keyword_reaches_both_names the_salt the_grains the_opts
                  the_pillar (answers success common_packages)
                  [VNone] kwargs m minion (Some top_py) true ctx Hc Hin)).
  reflexivity.
Defined.

(** The environment and the script id left out. *)
Lemma defaults_reach_the_script_witness :
  let kwargs : gmap string value := {[ "tmplpath" := VStr top_py ]} in
  let ctx := sample_context (VStr "base") (VStr "") ∅ in
  ctx !! "__env__" = Some (VStr "base") ∧
  ctx !! "saltenv" = Some (VStr "base").
Proof.
  intros kwargs ctx.
  set (m := sample_render (answers success common_packages) VNone
                          (VStr "base") (VStr "") (Some top_py) ∅).
  assert (sample_call (answers success common_packages) [VNone] kwargs
          = Some m) as Hc by reflexivity.
  assert (Execute (Some top_py) true ctx ∈ trace (m minion)) as Hin
    by (apply (list_elem_of_lookup_2 _ 1); reflexivity).
  apply (proj1 (defaults_reach_the_script the_salt the_grains the_opts
                  the_pillar (answers success common_packages)
                  [VNone] kwargs m minion (Some top_py) true ctx Hc Hin)).
  - simpl. lia.
  - reflexivity.
Defined.

(** A caller's own [salt] stops the render before the script. *)
Lemma reserved_keyword_never_runs_script_witness :
  let kwargs : gmap string value :=
    {[ "tmplpath" := VStr top_py; "salt" := VStr "mine" ]} in
  is_Some (kwargs !! "salt") ∧
  Execute (Some top_py) true
          (sample_context (VStr "base") (VStr "") {[ "salt" := VStr "mine" ]})
  ∉ trace (sample_render (reads "salt") VNone (VStr "base") (VStr "")
                         (Some top_py) {[ "salt" := VStr "mine" ]} minion).
Proof.
  intros kwargs.
  assert (is_Some (kwargs !! "salt")) as Hs by (by exists (VStr "mine")).
  split; [exact Hs|].
  apply (reserved_keyword_never_runs_script the_salt the_grains the_opts
           the_pillar (reads "salt") [VNone] kwargs _ minion "salt").
  - reflexivity.
  - in_files.
  - in_files.
  - exact Hs.
Defined.

